(** * The transcription prototype's upload controller (script.js)

    A shallow embedding of [TranscriptionTester]: the change handler of the
    file input, the one request it sends, and the three render methods that
    write the result area.

    The page is modelled by the three DOM properties the script writes.  The
    network and the response body are inputs: what [fetch] settles with and
    what [response.json()] settles with.  Every effect of the script (a DOM
    write, a [fetch] call, a console line) is appended to a chronological
    log, so that statements about order and number of effects can be read
    off the log. *)

From Stdlib Require Import String Ascii List NArith ZArith Bool Lia DecimalString.
Import ListNotations.
Local Open Scope string_scope.

(** ** Strings *)

(** The line feed of the template literals' [\n]. *)
Definition LF : string := String (ascii_of_nat 10) "".

(** [includes sub s]: [s.includes(sub)]. *)
Fixpoint includes (sub s : string) : bool :=
  prefix sub s ||
  match s with
  | EmptyString => false
  | String _ s' => includes sub s'
  end.

(** [Contains sub s]: [sub] occurs in [s]. *)
Definition Contains (sub s : string) : Prop :=
  exists pre post, s = pre ++ sub ++ post.

(** [StartsWith p s]: [s] begins with [p]. *)
Definition StartsWith (p s : string) : Prop :=
  exists rest, s = p ++ rest.

(** ** The JavaScript engine

    What the program leaves to the engine: how a JSON number tests and
    prints, and the message texts of the two [TypeError]s the engine itself
    can raise while the program runs. *)
Class Engine := {
  number : Type;
  (** [ToBoolean] of a number is false on zero. *)
  number_is_zero : number -> bool;
  (** [Number::toString]. *)
  number_to_string : number -> string;
  (** Message of the [TypeError] raised by reading property [p] of [null]. *)
  null_read_message : string -> string;
  (** Message of the [TypeError] raised when an object has no primitive value. *)
  to_primitive_message : string
}.

(** An error object: what [catch (error)] receives. *)
Record JSError := { name : string; message : string }.

Definition Error (m : string) : JSError := {| name := "Error"; message := m |}.
Definition TypeError (m : string) : JSError := {| name := "TypeError"; message := m |}.
Definition SyntaxError (m : string) : JSError := {| name := "SyntaxError"; message := m |}.

(** A completion: a value, or a thrown error (a rejected promise once awaited). *)
Inductive Outcome (A : Type) : Type :=
| Normal (a : A)
| Throw (e : JSError).
Arguments Normal {A} a.
Arguments Throw {A} e.

(** ** The page *)

(** A selected file: name, MIME type, content. *)
Record File := { file_name : string; file_type : string; file_bytes : list Byte.byte }.

(** [FormData]: entries in the order they were appended. *)
Definition FormData := list (string * File).

(** [formData.append(field, f)]. *)
Definition FormData_append (fd : FormData) (field : string) (f : File) : FormData :=
  (fd ++ [(field, f)])%list.

(** The second argument of [fetch]. *)
Record RequestInit := { method : string; body : FormData }.

(** The properties of [#result] and [#transcript] that the script writes.
    [transcript_innerHTML] is the string last assigned to [innerHTML]: the
    markup as the script gave it, before the browser parses it. *)
Record UI := {
  result_display : string;
  transcript_innerHTML : string;
  transcript_className : string
}.

Inductive Event :=
| SetDisplay (v : string)
| SetInnerHTML (v : string)
| SetClassName (v : string)
| Fetch (url : string) (init : RequestInit)
| ConsoleLog (line : string)
| ConsoleError (line : string) (e : JSError).

(** The page and the effects so far, oldest first. *)
Record World := { dom : UI; log : list Event }.

(** The change event: [event.target.files]. *)
Record ChangeEvent := { files : list File }.

(** ** Computations: state passing with exceptions

    A thrown error keeps the writes made before it. *)
Definition JS (A : Type) : Type := World -> Outcome A * World.

Definition ret {A} (a : A) : JS A := fun w => (Normal a, w).

Definition throw {A} (e : JSError) : JS A := fun w => (Throw e, w).

Definition bind {A B} (c : JS A) (k : A -> JS B) : JS B :=
  fun w =>
    match c w with
    | (Normal a, w') => k a w'
    | (Throw e, w') => (Throw e, w')
    end.

(** [try { c } catch (error) { h error }], and [promise.catch(h)]. *)
Definition try_catch {A} (c : JS A) (h : JSError -> JS A) : JS A :=
  fun w =>
    match c w with
    | (Normal a, w') => (Normal a, w')
    | (Throw e, w') => h e w'
    end.

(** A pure step that may throw. *)
Definition lift {A} (o : Outcome A) : JS A := fun w => (o, w).

Definition emit (ev : Event) : JS unit :=
  fun w => (Normal tt, {| dom := dom w; log := (log w ++ [ev])%list |}).

Declare Scope js_scope.
Delimit Scope js_scope with js.
Notation "x <- c ;; k" := (bind c (fun x => k))
  (at level 61, c at next level, right associativity) : js_scope.
Notation "c ;; k" := (bind c (fun _ => k))
  (at level 61, right associativity) : js_scope.
Local Open Scope js_scope.

(** The three property writes. *)
Definition set_display (v : string) : JS unit :=
  fun w =>
    (Normal tt,
     {| dom := {| result_display := v;
                  transcript_innerHTML := transcript_innerHTML (dom w);
                  transcript_className := transcript_className (dom w) |};
        log := (log w ++ [SetDisplay v])%list |}).

Definition set_innerHTML (v : string) : JS unit :=
  fun w =>
    (Normal tt,
     {| dom := {| result_display := result_display (dom w);
                  transcript_innerHTML := v;
                  transcript_className := transcript_className (dom w) |};
        log := (log w ++ [SetInnerHTML v])%list |}).

Definition set_className (v : string) : JS unit :=
  fun w =>
    (Normal tt,
     {| dom := {| result_display := result_display (dom w);
                  transcript_innerHTML := transcript_innerHTML (dom w);
                  transcript_className := v |};
        log := (log w ++ [SetClassName v])%list |}).

Definition console_log (line : string) : JS unit := emit (ConsoleLog line).
Definition console_error (line : string) (e : JSError) : JS unit :=
  emit (ConsoleError line e).

(** [`${n}`] for the status, an unsigned integer: its decimal digits. *)
Definition status_to_string (n : N) : string :=
  NilEmpty.string_of_uint (N.to_uint n).

Section Program.
Context `{Engine}.

(** ** JSON values: what [response.json()] can resolve with *)
#[local] Set Warnings "-register-all".
Inductive JSON :=
| JNull
| JBool (b : bool)
| JNumber (n : number)
| JString (s : string)
| JArray (items : list JSON)
| JObject (props : list (string * JSON)).

(** The value of a property read: [None] is [undefined]. *)
Definition JSValue := option JSON.

(** The own property [p] of a parsed object. *)
Fixpoint own_property (p : string) (props : list (string * JSON)) : JSValue :=
  match props with
  | [] => None
  | (k, v) :: rest => if String.eqb k p then Some v else own_property p rest
  end.

(** [v.p] for the two names the script reads, [transcription] and [detail].
    Neither is defined on a built-in prototype, so on a value that is not
    an object with that own property the read gives [undefined]; on [null]
    it throws. *)
Definition Get (v : JSON) (p : string) : Outcome JSValue :=
  match v with
  | JNull => Throw (TypeError (null_read_message p))
  | JObject props => Normal (own_property p props)
  | _ => Normal None
  end.

(** [ToBoolean]. *)
Definition ToBoolean (v : JSValue) : bool :=
  match v with
  | None => false
  | Some JNull => false
  | Some (JBool b) => b
  | Some (JNumber n) => negb (number_is_zero n)
  | Some (JString s) => negb (String.eqb s "")
  | Some (JArray _) => true
  | Some (JObject _) => true
  end.

(** [v || d] with a string literal [d] on the right. *)
Definition or_default (v : JSValue) (d : string) : JSON :=
  match v with
  | Some j => if ToBoolean v then j else JString d
  | None => JString d
  end.

(** [ToString], as a template literal and the [innerHTML] setter apply it.
    An array joins its items with commas, a [null] item printing as nothing.
    A parsed object prints through [Object.prototype.toString] unless an own
    property hides it: that property is not callable, and the conversion
    throws. *)
Fixpoint ToString (v : JSON) : Outcome string :=
  match v with
  | JNull => Normal "null"
  | JBool true => Normal "true"
  | JBool false => Normal "false"
  | JNumber n => Normal (number_to_string n)
  | JString s => Normal s
  | JArray items =>
      (fix join (l : list JSON) : Outcome string :=
         match l with
         | [] => Normal ""
         | x :: rest =>
             match (match x with JNull => Normal "" | _ => ToString x end) with
             | Throw e => Throw e
             | Normal s =>
                 match rest with
                 | [] => Normal s
                 | _ :: _ =>
                     match join rest with
                     | Throw e => Throw e
                     | Normal t => Normal (s ++ "," ++ t)
                     end
                 end
             end
         end) items
  | JObject props =>
      match own_property "toString" props with
      | Some _ => Throw (TypeError to_primitive_message)
      | None => Normal "[object Object]"
      end
  end.

(** ** The network *)

(** A response: [status], [statusText], and what [json()] settles with. *)
Record Response := {
  status : N;
  statusText : string;
  json_body : Outcome JSON
}.

(** [response.ok]: the status is in the range 200 to 299. *)
Definition ok (r : Response) : bool :=
  (200 <=? status r)%N && (status r <=? 299)%N.

(** The page's surroundings: its origin, and what [fetch] settles with. *)
Record Env := {
  origin : string;
  network : string -> RequestInit -> Outcome Response
}.

(** [const API_BASE_URL = window.location.origin]. *)
Definition API_BASE_URL (env : Env) : string := origin env.

(** [const TRANSCRIBE_URL = `${API_BASE_URL}/api/transcribe`]. *)
Definition TRANSCRIBE_URL (env : Env) : string :=
  API_BASE_URL env ++ "/api/transcribe".

(** [await fetch(url, init)]. *)
Definition fetch (env : Env) (url : string) (init : RequestInit) : JS Response :=
  emit (Fetch url init) ;; lift (network env url init).

(** [await response.json()]. *)
Definition json (r : Response) : JS JSON := lift (json_body r).

(** ** TranscriptionTester *)

(** [showLoading()]. *)
Definition showLoading : JS unit :=
  set_display "block" ;;
  set_innerHTML "Processing audio with AI..." ;;
  set_className "loading".

(** [showResult(text)]. *)
Definition showResult (text : JSValue) : JS unit :=
  html <- lift (ToString (or_default text "No transcript generated.")) ;;
  set_innerHTML html ;;
  set_className "".

(** The template literal of [showError]. *)
Definition error_text (message : string) : string :=
  "Error: " ++ message ++ LF ++ LF ++
  "Make sure to:" ++ LF ++
  "1. Use a supported audio format (MP3, WAV, M4A, FLAC, etc.)" ++ LF ++
  "2. Check your internet connection" ++ LF ++
  "3. File is not empty or corrupted" ++ LF ++
  "4. File is under 25MB".

(** [showError(message)]. *)
Definition showError (message : string) : JS unit :=
  set_innerHTML (error_text message) ;;
  set_className "error".

(** The template literal of the error thrown on a response that is not ok. *)
Definition failure_text (r : Response) (detail : string) : string :=
  "Transcription failed: " ++ status_to_string (status r) ++ " " ++
  statusText r ++ " - " ++ detail.

(** [transcribeWithServerless(file)]. *)
Definition transcribeWithServerless (env : Env) (file : File) : JS JSON :=
  let formData := FormData_append [] "file" file in
  response <- fetch env (TRANSCRIBE_URL env)
                {| method := "POST"; body := formData |} ;;
  if negb (ok response) then
    errorData <- try_catch (json response) (fun _ => ret (JObject [])) ;;
    detail <- lift (Get errorData "detail") ;;
    shown <- lift (ToString (or_default detail "Unknown error")) ;;
    throw (Error (failure_text response shown))
  else
    json response.

(** The [try] block of [handleFileUpload]. *)
Definition try_block (env : Env) (file : File) : JS unit :=
  console_log "Starting serverless transcription..." ;;
  transcriptionResult <- transcribeWithServerless env file ;;
  console_log "Transcription completed" ;;
  text <- lift (Get transcriptionResult "transcription") ;;
  showResult text.

(** The [catch (error)] block of [handleFileUpload]. *)
Definition catch_block (error : JSError) : JS unit :=
  console_error "Transcription failed:" error ;;
  showError (message error).

(** [handleFileUpload(event)]. *)
Definition handleFileUpload (env : Env) (event : ChangeEvent) : JS unit :=
  match files event with
  | [] => ret tt
  | file :: _ =>
      showLoading ;;
      try_catch (try_block env file) catch_block
  end.

(** ** Runs of the page

    What can write the result area once the page is loaded: the three render
    methods, and the handler on a change event.  Two uploads that overlap
    in time interleave as such steps. *)
Inductive Operation :=
| OpShowLoading
| OpShowResult (text : JSValue)
| OpShowError (message : string)
| OpHandleFileUpload (env : Env) (event : ChangeEvent).

Definition run (o : Operation) : JS unit :=
  match o with
  | OpShowLoading => showLoading
  | OpShowResult text => showResult text
  | OpShowError m => showError m
  | OpHandleFileUpload env event => handleFileUpload env event
  end.

(** [reachable w0 w]: some sequence of operations leads from [w0] to [w]. *)
Inductive reachable (w0 : World) : World -> Prop :=
| reachable_refl : reachable w0 w0
| reachable_step w o : reachable w0 w -> reachable w0 (snd (run o w)).

(** The one request of an upload of [file]. *)
Definition upload_request (file : File) : RequestInit :=
  {| method := "POST"; body := [("file", file)] |}.

(** The log of an upload of [file] up to and including its [fetch] call. *)
Definition log_until_fetch (env : Env) (file : File) : list Event :=
  [ SetDisplay "block";
    SetInnerHTML "Processing audio with AI...";
    SetClassName "loading";
    ConsoleLog "Starting serverless transcription...";
    Fetch (TRANSCRIBE_URL env) (upload_request file) ].

(** The world after an upload of [file] from [w] that failed with [e]. *)
Definition failed_upload (env : Env) (file : File) (e : JSError) (w : World) : World :=
  {| dom := {| result_display := "block";
               transcript_innerHTML := error_text (message e);
               transcript_className := "error" |};
     log := (log w ++ log_until_fetch env file ++
             [ ConsoleError "Transcription failed:" e;
               SetInnerHTML (error_text (message e));
               SetClassName "error" ])%list |}.

(** The world after an upload of [file] from [w] whose response was read
    and whose render then failed with [e]. *)
Definition failed_render (env : Env) (file : File) (e : JSError) (w : World) : World :=
  {| dom := {| result_display := "block";
               transcript_innerHTML := error_text (message e);
               transcript_className := "error" |};
     log := (log w ++ log_until_fetch env file ++
             [ ConsoleLog "Transcription completed";
               ConsoleError "Transcription failed:" e;
               SetInnerHTML (error_text (message e));
               SetClassName "error" ])%list |}.

(** The world after an upload of [file] from [w] that rendered [html]. *)
Definition rendered_upload (env : Env) (file : File) (html : string) (w : World) : World :=
  {| dom := {| result_display := "block";
               transcript_innerHTML := html;
               transcript_className := "" |};
     log := (log w ++ log_until_fetch env file ++
             [ ConsoleLog "Transcription completed";
               SetInnerHTML html;
               SetClassName "" ])%list |}.

End Program.

(** ** Reading the log *)

(** The requests sent, oldest first. *)
Fixpoint requests (evs : list Event) : list (string * RequestInit) :=
  match evs with
  | [] => []
  | Fetch url init :: rest => (url, init) :: requests rest
  | _ :: rest => requests rest
  end.

(** The number of error renders: [showError] alone sets the class [error]. *)
Fixpoint error_renders (evs : list Event) : nat :=
  match evs with
  | [] => 0
  | SetClassName c :: rest =>
      (if String.eqb c "error" then 1 else 0) + error_renders rest
  | _ :: rest => error_renders rest
  end.

(** The page after one logged effect. *)
Definition apply_event (u : UI) (ev : Event) : UI :=
  match ev with
  | SetDisplay v =>
      {| result_display := v;
         transcript_innerHTML := transcript_innerHTML u;
         transcript_className := transcript_className u |}
  | SetInnerHTML v =>
      {| result_display := result_display u;
         transcript_innerHTML := v;
         transcript_className := transcript_className u |}
  | SetClassName v =>
      {| result_display := result_display u;
         transcript_innerHTML := transcript_innerHTML u;
         transcript_className := v |}
  | _ => u
  end.

(** The page after the logged effects [evs], in order. *)
Definition replay (evs : list Event) (u : UI) : UI :=
  fold_left apply_event evs u.

(** The loading state of the result area. *)
Definition loading : UI :=
  {| result_display := "block";
     transcript_innerHTML := "Processing audio with AI...";
     transcript_className := "loading" |}.

(** ** A concrete engine and concrete inputs *)

(** V8 (Chrome, Node) restricted to integral JSON numbers. *)
#[global] Instance V8 : Engine := {|
  number := Z;
  number_is_zero := Z.eqb 0;
  number_to_string := fun z => NilZero.string_of_int (Z.to_int z);
  null_read_message := fun p =>
    "Cannot read properties of null (reading '" ++ p ++ "')";
  to_primitive_message := "Cannot convert object to primitive value"
|}.

Definition clip : File :=
  {| file_name := "set.mp3"; file_type := "audio/mpeg"; file_bytes := [] |}.

(** A page whose result area is still hidden by the style sheet. *)
Definition idle : World :=
  {| dom := {| result_display := "";
               transcript_innerHTML := "";
               transcript_className := "" |};
     log := [] |}.

(** A server that answers every request with [r], on a fixed origin. *)
Definition server (r : Response) : Env :=
  {| origin := "https://your-app.vercel.app";
     network := fun _ _ => Normal r |}.

(** A network on which every request is rejected with [e]. *)
Definition offline (e : JSError) : Env :=
  {| origin := "https://your-app.vercel.app";
     network := fun _ _ => Throw e |}.

Definition hello_world : Response :=
  {| status := 200; statusText := "OK";
     json_body := Normal (JObject [("transcription", JString "hello world")]) |}.

Definition empty_transcription : Response :=
  {| status := 200; statusText := "OK";
     json_body := Normal (JObject [("transcription", JString "")]) |}.

Definition too_large : Response :=
  {| status := 413; statusText := "Payload Too Large";
     json_body := Normal (JObject [("detail", JString "file too large")]) |}.

(** A gateway error page: the body is HTML, [json()] rejects. *)
Definition bad_gateway : Response :=
  {| status := 502; statusText := "Bad Gateway";
     json_body := Throw (SyntaxError "Unexpected token < in JSON at position 0") |}.

(** A response that is not ok and whose body is the JSON text [null]. *)
Definition null_error_body : Response :=
  {| status := 500; statusText := "Internal Server Error";
     json_body := Normal JNull |}.

(** A success status over a body that is not JSON. *)
Definition garbled_success : Response :=
  {| status := 200; statusText := "OK";
     json_body := Throw (SyntaxError "Unexpected end of JSON input") |}.

(** ** The two halves of an upload

    [handleFileUpload] is an [async] function.  It runs without a break up
    to the [fetch] call; what follows runs once the response and its body
    have settled, and other handlers may run in between.  Nothing is
    written or logged between the two halves. *)

(** The message of the [TypeError] raised by writing property [p] of [null]. *)
Class EngineWrites := { null_write_message : string -> string }.

Section Page.
Context `{Engine} `{EngineWrites}.

(** The handler up to its first [await]: the loading state, the console
    line, the [fetch] call. *)
Definition start_upload (env : Env) (file : File) : JS unit :=
  showLoading ;;
  console_log "Starting serverless transcription..." ;;
  emit (Fetch (TRANSCRIBE_URL env) (upload_request file)).

(** [transcribeWithServerless] from the point where [fetch] has settled
    with [settled]. *)
Definition resume_transcribe (settled : Outcome Response) : JS JSON :=
  response <- lift settled ;;
  if negb (ok response) then
    errorData <- try_catch (json response) (fun _ => ret (JObject [])) ;;
    detail <- lift (Get errorData "detail") ;;
    shown <- lift (ToString (or_default detail "Unknown error")) ;;
    throw (Error (failure_text response shown))
  else
    json response.

(** The handler from the point where its request has settled. *)
Definition resume_upload (env : Env) (file : File) : JS unit :=
  try_catch
    (transcriptionResult <-
       resume_transcribe (network env (TRANSCRIBE_URL env) (upload_request file)) ;;
     console_log "Transcription completed" ;;
     text <- lift (Get transcriptionResult "transcription") ;;
     showResult text)
    catch_block.

(** Change events handled one after the other, each to its end. *)
Fixpoint handle_all (env : Env) (events : list ChangeEvent) : JS unit :=
  match events with
  | [] => ret tt
  | event :: later => handleFileUpload env event ;; handle_all env later
  end.

(** The files that a run of change events uploads: the first of each
    selection. *)
Fixpoint uploaded (events : list ChangeEvent) : list File :=
  match events with
  | [] => []
  | event :: later =>
      match files event with
      | [] => uploaded later
      | file :: _ => file :: uploaded later
      end
  end.

(** A page whose class and text agree: the class [loading] goes with the
    placeholder, the class [error] with a troubleshooting text. *)
Definition consistent (u : UI) : Prop :=
  (transcript_className u = "loading" /\
   transcript_innerHTML u = "Processing audio with AI...") \/
  (transcript_className u = "error" /\
   exists m, transcript_innerHTML u = error_text m) \/
  transcript_className u = "".

(** ** The constructor and the page load *)

(** The document: the ids of its elements. *)
Definition Document := list string.

(** [document.getElementById(id)]: the element, or [null]. *)
Definition getElementById (doc : Document) (id : string) : option string :=
  if existsb (String.eqb id) doc then Some id else None.

(** The fields of a [TranscriptionTester]; [None] is [null]. *)
Record TranscriptionTester := {
  audioFile : option string;
  result : option string;
  transcript : option string
}.

(** [new TranscriptionTester()]: the three lookups, then the registration
    of the change listener on [this.audioFile], which throws on [null].
    A normal completion means the listener is registered. *)
Definition new_TranscriptionTester (doc : Document) : Outcome TranscriptionTester :=
  let this := {| audioFile := getElementById doc "audioFile";
                 result := getElementById doc "result";
                 transcript := getElementById doc "transcript" |} in
  match audioFile this with
  | None => Throw (TypeError (null_read_message "addEventListener"))
  | Some _ => Normal this
  end.

(** The [DOMContentLoaded] listener: it constructs one tester and lets an
    error of the constructor go.  The result is the tester whose handler
    listens on the file input, if any. *)
Definition DOMContentLoaded (doc : Document) : option TranscriptionTester :=
  match new_TranscriptionTester doc with
  | Normal this => Some this
  | Throw _ => None
  end.

(** [el.p] read for a further access, and [el.p = v]: both throw on [null]. *)
Definition reading {A} (el : option string) (p : string) (c : JS A) : JS A :=
  match el with
  | Some _ => c
  | None => throw (TypeError (null_read_message p))
  end.

Definition writing {A} (el : option string) (p : string) (c : JS A) : JS A :=
  match el with
  | Some _ => c
  | None => throw (TypeError (null_write_message p))
  end.

(** The methods on a tester whose elements may be missing. *)
Definition showLoading_of (this : TranscriptionTester) : JS unit :=
  reading (result this) "style" (set_display "block") ;;
  writing (transcript this) "innerHTML"
    (set_innerHTML "Processing audio with AI...") ;;
  writing (transcript this) "className" (set_className "loading").

Definition showResult_of (this : TranscriptionTester) (text : JSValue) : JS unit :=
  writing (transcript this) "innerHTML"
    (html <- lift (ToString (or_default text "No transcript generated.")) ;;
     set_innerHTML html) ;;
  writing (transcript this) "className" (set_className "").

Definition showError_of (this : TranscriptionTester) (message : string) : JS unit :=
  writing (transcript this) "innerHTML" (set_innerHTML (error_text message)) ;;
  writing (transcript this) "className" (set_className "error").

Definition handleFileUpload_of
    (this : TranscriptionTester) (env : Env) (event : ChangeEvent) : JS unit :=
  match files event with
  | [] => ret tt
  | file :: _ =>
      showLoading_of this ;;
      try_catch
        (console_log "Starting serverless transcription..." ;;
         transcriptionResult <- transcribeWithServerless env file ;;
         console_log "Transcription completed" ;;
         text <- lift (Get transcriptionResult "transcription") ;;
         showResult_of this text)
        (fun error =>
           console_error "Transcription failed:" error ;;
           showError_of this (message error))
  end.

(** A change event on the file input of a loaded page: the registered
    handler runs, or nothing does. *)
Definition change (page : option TranscriptionTester) (env : Env)
    (event : ChangeEvent) : JS unit :=
  match page with
  | Some this => handleFileUpload_of this env event
  | None => ret tt
  end.

End Page.

#[global] Instance V8_writes : EngineWrites := {|
  null_write_message := fun p =>
    "Cannot set properties of null (setting '" ++ p ++ "')"
|}.

(** The page of the prototype, and two broken ones. *)
Definition complete_page : Document := ["audioFile"; "result"; "transcript"].
Definition page_without_result : Document := ["audioFile"; "transcript"].
Definition page_without_input : Document := ["result"; "transcript"].

Definition long_clip : File :=
  {| file_name := "hour.wav"; file_type := "audio/wav"; file_bytes := [] |}.

(** A server that accepts [set.mp3] and refuses every other file as too
    large. *)
Definition picky_server : Env :=
  {| origin := "https://your-app.vercel.app";
     network := fun _ init =>
       match body init with
       | (_, f) :: _ =>
           if String.eqb (file_name f) "set.mp3"
           then Normal hello_world else Normal too_large
       | [] => Normal too_large
       end |}.

(** A validation error in the style of FastAPI: [detail] is a list of
    objects. *)
Definition unprocessable : Response :=
  {| status := 422; statusText := "Unprocessable Entity";
     json_body :=
       Normal (JObject
         [("detail",
           JArray [JObject [("msg", JString "field required")];
                   JObject [("msg", JString "value is not a valid file")]])]) |}.

(** A success status over the body [null]. *)
Definition null_success : Response :=
  {| status := 200; statusText := "OK"; json_body := Normal JNull |}.

(** A transcript with markup characters in it. *)
Definition markup_transcript : Response :=
  {| status := 200; statusText := "OK";
     json_body := Normal (JObject [("transcription", JString "<b>hi</b> & <i>bye")]) |}.

(** * Properties *)

(** ** Strings *)

Lemma string_app_assoc (a b c : string) : (a ++ b) ++ c = a ++ b ++ c.
Proof.
  induction a as [|ch a IH]; simpl; [reflexivity|].
  now rewrite IH.
Qed.

Lemma prefix_StartsWith (p s : string) : prefix p s = true <-> StartsWith p s.
Proof.
  revert s; induction p as [|a p IH]; intros s; split.
  - intros _. exists s. reflexivity.
  - intros _. destruct s; reflexivity.
  - destruct s as [|b s]; simpl; [discriminate|].
    destruct (ascii_dec a b) as [->|]; [|discriminate].
    intros Hp. apply IH in Hp. destruct Hp as [rest ->].
    exists rest. reflexivity.
  - intros [rest ->]. simpl.
    destruct (ascii_dec a a) as [_|Hne]; [|now elim Hne].
    apply IH. exists rest. reflexivity.
Qed.

Lemma includes_Contains (sub s : string) : includes sub s = true <-> Contains sub s.
Proof.
  induction s as [|c s IH].
  - cbn [includes]. rewrite orb_false_r, prefix_StartsWith. split.
    + intros [rest ->]. exists "", rest. reflexivity.
    + intros [pre [post E]]. destruct pre; [|discriminate]. exists post. exact E.
  - cbn [includes]. rewrite orb_true_iff, prefix_StartsWith, IH. split.
    + intros [[rest E]|[pre [post E]]].
      * exists "", rest. exact E.
      * exists (String c pre), post. simpl. now rewrite E.
    + intros [pre [post E]]. destruct pre as [|c' pre].
      * left. exists post. exact E.
      * right. simpl in E. injection E as _ E. exists pre, post. exact E.
Qed.

(** ** The log and the page *)

Lemma requests_app (a b : list Event) :
  requests (a ++ b) = (requests a ++ requests b)%list.
Proof.
  induction a as [|ev a IH]; simpl; [reflexivity|].
  destruct ev; simpl; now rewrite IH.
Qed.

Lemma error_renders_app (a b : list Event) :
  error_renders (a ++ b) = error_renders a + error_renders b.
Proof.
  induction a as [|ev a IH]; simpl; [reflexivity|].
  destruct ev; simpl; rewrite IH; lia.
Qed.

Section Properties.
Context `{Engine}.

(** Unfolds a computation down to the state-passing term. *)
Ltac run_js :=
  unfold handleFileUpload, try_block, catch_block, transcribeWithServerless,
    fetch, json, showLoading, showResult, showError, console_log,
    console_error, emit, set_display, set_innerHTML, set_className,
    bind, try_catch, lift, ret, throw, FormData_append in *;
  cbn [files dom log fst snd app message] in *.

(** Brings a log back to the shape [log w ++ events]. *)
Ltac flat_log :=
  cbn [fst snd dom log result_display transcript_innerHTML transcript_className];
  repeat (rewrite <- app_assoc; cbn [app]).

(** [transcribeWithServerless] sends one request and writes nothing. *)
Lemma transcribe_world (env : Env) (file : File) (w : World) :
  snd (transcribeWithServerless env file w) =
  {| dom := dom w;
     log := (log w ++ [Fetch (TRANSCRIBE_URL env) (upload_request file)])%list |}.
Proof.
  run_js. unfold upload_request.
  destruct (network env _ _) as [r|e]; [|reflexivity].
  destruct (ok r); cbn [negb].
  - destruct (json_body r); reflexivity.
  - destruct (json_body r) as [v|e]; cbn.
    + destruct (Get v "detail") as [d|e]; [|reflexivity].
      destruct (ToString _); reflexivity.
    + reflexivity.
Qed.

(** What [transcribeWithServerless] settles with does not depend on the page. *)
Lemma transcribe_settles (env : Env) (file : File) (w w' : World) :
  fst (transcribeWithServerless env file w) =
  fst (transcribeWithServerless env file w').
Proof.
  run_js.
  destruct (network env _ _) as [r|e]; [|reflexivity].
  destruct (ok r); cbn [negb].
  - destruct (json_body r); reflexivity.
  - destruct (json_body r) as [v|e]; cbn.
    + destruct (Get v "detail") as [d|e]; [|reflexivity].
      destruct (ToString _); reflexivity.
    + reflexivity.
Qed.


(** Splits a run on what the network, the body and the conversions give. *)
Ltac split_run :=
  repeat (cbn beta iota zeta delta [fst snd negb dom log message files];
          match goal with
          | |- context [match network ?e ?u ?i with _ => _ end] =>
              destruct (network e u i) eqn:?
          | |- context [if negb (ok ?r) then _ else _] =>
              destruct (ok r) eqn:?
          | |- context [match json_body ?r with _ => _ end] =>
              destruct (json_body r) eqn:?
          | |- context [match Get ?v ?p with _ => _ end] =>
              destruct (Get v p) eqn:?
          | |- context [match ToString ?v with _ => _ end] =>
              destruct (ToString v) eqn:?
          end).

(** An upload whose request or response fails ends in the error render. *)
Lemma upload_fails (env : Env) (file : File) (rest : list File) (w : World) (e : JSError) :
  fst (transcribeWithServerless env file w) = Throw e ->
  handleFileUpload env {| files := file :: rest |} w =
  (Normal tt, failed_upload env file e w).
Proof.
  unfold failed_upload, log_until_fetch, upload_request.
  run_js. split_run; intros E; inversion E; subst; flat_log; reflexivity.
Qed.

(** An upload whose response was read renders it, or ends in the error
    render when the transcript cannot be read or printed. *)
Lemma upload_settles (env : Env) (file : File) (rest : list File) (w : World) (v : JSON) :
  fst (transcribeWithServerless env file w) = Normal v ->
  handleFileUpload env {| files := file :: rest |} w =
  (Normal tt,
   match Get v "transcription" with
   | Throw e => failed_render env file e w
   | Normal text =>
       match ToString (or_default text "No transcript generated.") with
       | Throw e => failed_render env file e w
       | Normal html => rendered_upload env file html w
       end
   end).
Proof.
  unfold failed_render, rendered_upload, log_until_fetch, upload_request.
  run_js. split_run; intros E; inversion E; subst; split_run;
    flat_log; congruence.
Qed.

(** Every upload of a file ends in one of three worlds. *)
Lemma upload_ends (env : Env) (file : File) (rest : list File) (w : World) :
  let run := handleFileUpload env {| files := file :: rest |} w in
  (exists e, run = (Normal tt, failed_upload env file e w)) \/
  (exists e, run = (Normal tt, failed_render env file e w)) \/
  (exists html, run = (Normal tt, rendered_upload env file html w)).
Proof.
  cbv zeta.
  destruct (fst (transcribeWithServerless env file w)) as [v|e] eqn:E.
  - rewrite (upload_settles _ _ _ _ _ E).
    destruct (Get v "transcription") as [text|e]; [|eauto].
    destruct (ToString _) as [html|e]; eauto.
  - rewrite (upload_fails _ _ _ _ _ E). eauto.
Qed.

(** The page is what the log says: replaying the effects of an upload on
    the page it started from gives the page it ended with. *)
Lemma upload_replays (env : Env) (event : ChangeEvent) (w : World) :
  exists evs,
    log (snd (handleFileUpload env event w)) = (log w ++ evs)%list /\
    dom (snd (handleFileUpload env event w)) = replay evs (dom w).
Proof.
  destruct event as [[|file rest]].
  - exists []. split; [symmetry; apply app_nil_r|reflexivity].
  - destruct (upload_ends env file rest w) as [[e E]|[[e E]|[html E]]];
      cbv zeta in E; rewrite E; cbn [snd log dom failed_upload failed_render
                                      rendered_upload];
      eexists; (split; [reflexivity|]); reflexivity.
Qed.

(** No render method and no upload hides the result area again. *)
Lemma run_keeps_visible (o : Operation) (w : World) :
  result_display (dom w) = "block" ->
  result_display (dom (snd (run o w))) = "block".
Proof.
  intros V. destruct o as [|text|m|env [[|file rest]]]; cbn [run].
  - reflexivity.
  - run_js. destruct (ToString _); cbn; assumption.
  - run_js. assumption.
  - exact V.
  - destruct (upload_ends env file rest w) as [[e E]|[[e E]|[html E]]];
      cbv zeta in E; rewrite E; reflexivity.
Qed.

(** C6: when the change event carries no file, the handler returns at once:
    no request is sent, nothing is logged, and the display, the transcript
    text and the CSS class are what they were. *)
Theorem no_file_no_effect (env : Env) (event : ChangeEvent) (w : World) :
  files event = [] ->
  handleFileUpload env event w = (Normal tt, w).
Proof.
  intros E. unfold handleFileUpload. rewrite E. reflexivity.
Qed.

(** C1: when the change event carries a file, the handler sends exactly one
    request: a POST to the page's origin followed by [/api/transcribe],
    whose body is a form with the one field [file] holding that file. *)
Theorem one_post_per_selection
    (env : Env) (event : ChangeEvent) (file : File) (rest : list File) (w : World) :
  files event = file :: rest ->
  requests (log (snd (handleFileUpload env event w))) =
  (requests (log w) ++
   [((origin env ++ "/api/transcribe")%string,
     {| method := "POST"; body := [("file", file)] |})])%list.
Proof.
  intros E. destruct event as [fs]. cbn in E. subst fs.
  destruct (upload_ends env file rest w) as [[e R]|[[e R]|[html R]]];
    cbv zeta in R; rewrite R;
    cbn [snd log failed_upload failed_render rendered_upload];
    rewrite requests_app; reflexivity.
Qed.

(** C7: when the change event carries a file, the page is in the loading
    state before the request is issued.  In the world in which [fetch] is
    called the result area is displayed as a block, the transcript element
    holds the text [Processing audio with AI...] and has the class
    [loading], and no request has been sent yet; the handler is the
    [fetch] call and what follows it, run from that world.  In the log the
    three writes of the loading state come before the request. *)
Theorem loading_before_post
    (env : Env) (event : ChangeEvent) (file : File) (rest : list File) (w : World) :
  files event = file :: rest ->
  let at_fetch :=
    snd ((showLoading ;;
          console_log "Starting serverless transcription...") w) in
  dom at_fetch =
    {| result_display := "block";
       transcript_innerHTML := "Processing audio with AI...";
       transcript_className := "loading" |} /\
  requests (log at_fetch) = requests (log w) /\
  handleFileUpload env event w =
    (emit (Fetch (TRANSCRIBE_URL env) (upload_request file)) ;;
     resume_upload env file) at_fetch /\
  exists before after,
    log at_fetch = (log w ++ before)%list /\
    log (snd (handleFileUpload env event w)) =
    (log w ++ before ++
     Fetch (TRANSCRIBE_URL env) (upload_request file) :: after)%list /\
    requests before = [] /\
    requests after = [] /\
    replay before (dom w) = loading.
Proof.
  intros E. destruct event as [fs]. cbn in E. subst fs. cbv zeta.
  split; [reflexivity|].
  split.
  { run_js. flat_log. rewrite requests_app. cbn. apply app_nil_r. }
  split.
  { unfold resume_upload, resume_transcribe, upload_request.
    run_js. split_run; reflexivity. }
  exists [ SetDisplay "block"; SetInnerHTML "Processing audio with AI...";
           SetClassName "loading";
           ConsoleLog "Starting serverless transcription..." ].
  destruct (upload_ends env file rest w) as [[e R]|[[e R]|[html R]]];
    cbv zeta in R; rewrite R;
    cbn [snd log failed_upload failed_render rendered_upload log_until_fetch app];
    eexists; (split; [run_js; flat_log; reflexivity|]);
    repeat split; reflexivity.
Qed.

(** C8: [showError] always completes, and the text it puts in the
    transcript element starts with [Error: ] followed by the message it was
    given. *)
Theorem showError_prefix (m : string) (w : World) :
  fst (showError m w) = Normal tt /\
  StartsWith ("Error: " ++ m) (transcript_innerHTML (dom (snd (showError m w)))).
Proof.
  split; [reflexivity|].
  run_js. unfold error_text. eexists.
  rewrite string_app_assoc. reflexivity.
Qed.

(** C9: after an upload of a file the result area is displayed as a block,
    and it stays so in every world that render methods and further change
    events can lead to. *)
Theorem result_area_stays_visible
    (env : Env) (event : ChangeEvent) (file : File) (rest : list File) (w0 w : World) :
  files event = file :: rest ->
  reachable (snd (handleFileUpload env event w0)) w ->
  result_display (dom w) = "block".
Proof.
  intros E R. induction R as [|w o R IH].
  - destruct event as [fs]. cbn in E. subst fs.
    destruct (upload_ends env file rest w0) as [[e U]|[[e U]|[html U]]];
      cbv zeta in U; rewrite U; reflexivity.
  - apply run_keeps_visible, IH.
Qed.

(** ** What [transcribeWithServerless] settles with *)

Lemma transcribe_rejected (env : Env) (file : File) (w : World) (e : JSError) :
  network env (TRANSCRIBE_URL env) (upload_request file) = Throw e ->
  fst (transcribeWithServerless env file w) = Throw e.
Proof.
  unfold upload_request. intros N. run_js. rewrite N. reflexivity.
Qed.

Lemma transcribe_ok (env : Env) (file : File) (w : World) (r : Response) :
  network env (TRANSCRIBE_URL env) (upload_request file) = Normal r ->
  ok r = true ->
  fst (transcribeWithServerless env file w) = json_body r.
Proof.
  unfold upload_request. intros N K. run_js. rewrite N. cbn. rewrite K. cbn.
  destruct (json_body r); reflexivity.
Qed.

(** On a response that is not ok the call always throws: the error built
    from the status line and the detail, or the [TypeError] of reading or
    printing the detail. *)
Lemma transcribe_not_ok (env : Env) (file : File) (w : World) (r : Response) :
  network env (TRANSCRIBE_URL env) (upload_request file) = Normal r ->
  ok r = false ->
  fst (transcribeWithServerless env file w) =
  match Get (match json_body r with Normal v => v | Throw _ => JObject [] end)
            "detail" with
  | Throw e => Throw e
  | Normal detail =>
      match ToString (or_default detail "Unknown error") with
      | Throw e => Throw e
      | Normal shown => Throw (Error (failure_text r shown))
      end
  end.
Proof.
  unfold upload_request. intros N K. run_js. rewrite N. cbn. rewrite K. cbn.
  destruct (json_body r) as [v|e]; cbn; [|reflexivity].
  destruct (Get v "detail") as [d|e]; [|reflexivity].
  destruct (ToString _); reflexivity.
Qed.

(** The status line and the detail are in the text that [showError] writes
    for the error thrown on a response that is not ok. *)
Lemma failure_text_rendered (r : Response) (shown : string) :
  let html := error_text (message (Error (failure_text r shown))) in
  Contains (status_to_string (status r)) html /\
  Contains (statusText r) html /\
  Contains shown html.
Proof.
  cbn [message Error]. unfold error_text, failure_text.
  repeat split.
  - exists "Error: Transcription failed: ". eexists.
    rewrite !string_app_assoc. reflexivity.
  - exists ("Error: Transcription failed: " ++ status_to_string (status r) ++ " ").
    eexists. rewrite !string_app_assoc. reflexivity.
  - exists ("Error: Transcription failed: " ++ status_to_string (status r) ++ " "
            ++ statusText r ++ " - ").
    eexists. rewrite !string_app_assoc. reflexivity.
Qed.

(** X1: a response that is not ok is rendered with its status code, its
    status text and its detail, whenever the detail can be read and printed: the
    body did not parse, or it parsed to a value other than [null] whose
    [detail] prints as [shown] (a string prints as itself, an absent or
    empty one as [Unknown error]). *)
Lemma not_ok_rendered
    (env : Env) (file : File) (rest : list File) (w : World)
    (r : Response) (detail : JSValue) (shown : string) :
  network env (TRANSCRIBE_URL env) (upload_request file) = Normal r ->
  ok r = false ->
  Get (match json_body r with Normal v => v | Throw _ => JObject [] end)
      "detail" = Normal detail ->
  ToString (or_default detail "Unknown error") = Normal shown ->
  let html :=
    transcript_innerHTML
      (dom (snd (handleFileUpload env {| files := file :: rest |} w))) in
  html = error_text (failure_text r shown) /\
  Contains (status_to_string (status r)) html /\
  Contains (statusText r) html /\
  Contains shown html.
Proof.
  intros N K G S.
  pose proof (transcribe_not_ok env file w r N K) as T.
  rewrite G, S in T.
  rewrite (upload_fails _ _ rest _ _ T). cbn [snd dom failed_upload transcript_innerHTML].
  split; [reflexivity|]. apply failure_text_rendered.
Qed.

(** X14: when the response is ok and its body parses to an object, the
    string that the handler assigns to [innerHTML] of the transcript element
    is the [transcription] property itself when that is a string that is not
    empty, and [No transcript generated.] when it is the empty string or the
    object has no such property.  This is about the string assigned, not
    about what the browser shows for it. *)
Theorem transcript_rendered
    (env : Env) (event : ChangeEvent) (file : File) (rest : list File) (w : World)
    (r : Response) (props : list (string * JSON)) :
  files event = file :: rest ->
  network env (TRANSCRIBE_URL env) (upload_request file) = Normal r ->
  ok r = true ->
  json_body r = Normal (JObject props) ->
  let html := transcript_innerHTML (dom (snd (handleFileUpload env event w))) in
  (forall s, own_property "transcription" props = Some (JString s) ->
             s <> "" -> html = s) /\
  (own_property "transcription" props = Some (JString "") ->
   html = "No transcript generated.") /\
  (own_property "transcription" props = None ->
   html = "No transcript generated.").
Proof.
  intros E N K B. destruct event as [fs]. cbn in E. subst fs.
  pose proof (transcribe_ok env file w r N K) as T. rewrite B in T.
  cbv zeta. rewrite (upload_settles _ _ rest _ _ T). cbn [Get].
  repeat split.
  - intros s P Hs. rewrite P. cbn [or_default ToBoolean].
    apply String.eqb_neq in Hs. rewrite Hs. reflexivity.
  - intros P. rewrite P. reflexivity.
  - intros P. rewrite P. reflexivity.
Qed.

(** C5: when the request is rejected, or the response is not ok, or the
    body of an ok response does not parse, [transcribeWithServerless]
    throws, and the handler catches what it threw: it returns normally, the
    page shows the troubleshooting text built from the error's message with
    the class [error], the log holds the one request and one error render,
    and nothing follows.  For a rejected request and for an unparsable body
    the error is the one the network or the parser gave.  The text is
    spelled out: [Error: ], the message, an empty line, [Make sure to:] and
    the four numbered checks, each on a line of its own. *)
Theorem failures_render_once
    (env : Env) (event : ChangeEvent) (file : File) (rest : list File) (w : World) :
  files event = file :: rest ->
  (exists e, network env (TRANSCRIBE_URL env) (upload_request file) = Throw e) \/
  (exists r, network env (TRANSCRIBE_URL env) (upload_request file) = Normal r /\
             ok r = false) \/
  (exists r e, network env (TRANSCRIBE_URL env) (upload_request file) = Normal r /\
               ok r = true /\ json_body r = Throw e) ->
  exists e,
    fst (transcribeWithServerless env file w) = Throw e /\
    handleFileUpload env event w = (Normal tt, failed_upload env file e w) /\
    requests (log (failed_upload env file e w)) =
      (requests (log w) ++ [(TRANSCRIBE_URL env, upload_request file)])%list /\
    error_renders (log (failed_upload env file e w)) = error_renders (log w) + 1 /\
    (forall e0, network env (TRANSCRIBE_URL env) (upload_request file) = Throw e0 ->
                e = e0) /\
    (forall r e0, network env (TRANSCRIBE_URL env) (upload_request file) = Normal r ->
                  ok r = true -> json_body r = Throw e0 -> e = e0) /\
    let text :=
      ("Error: " ++ message e ++ LF ++ LF ++
       "Make sure to:" ++ LF ++
       "1. Use a supported audio format (MP3, WAV, M4A, FLAC, etc.)" ++ LF ++
       "2. Check your internet connection" ++ LF ++
       "3. File is not empty or corrupted" ++ LF ++
       "4. File is under 25MB")%string in
    fst (handleFileUpload env event w) = Normal tt /\
    dom (snd (handleFileUpload env event w)) =
      {| result_display := "block";
         transcript_innerHTML := text;
         transcript_className := "error" |} /\
    log (snd (handleFileUpload env event w)) =
      (log w ++
       [ SetDisplay "block";
         SetInnerHTML "Processing audio with AI...";
         SetClassName "loading";
         ConsoleLog "Starting serverless transcription...";
         Fetch (origin env ++ "/api/transcribe")%string
           {| method := "POST"; body := [("file", file)] |};
         ConsoleError "Transcription failed:" e;
         SetInnerHTML text;
         SetClassName "error" ])%list /\
    Contains (message e) text.
Proof.
  intros E F. destruct event as [fs]. cbn in E. subst fs.
  assert (exists e, fst (transcribeWithServerless env file w) = Throw e) as [e T].
  { destruct F as [[e N]|[[r [N K]]|[r [e [N [K B]]]]]].
    - exists e. now apply transcribe_rejected.
    - rewrite (transcribe_not_ok _ _ _ _ N K).
      destruct (Get _ "detail") as [d|e]; [|eauto].
      destruct (ToString _); eauto.
    - exists e. rewrite (transcribe_ok _ _ _ _ N K). exact B. }
  exists e. split; [exact T|]. split; [now apply upload_fails|].
  split; [|split; [|split; [|split]]].
  - cbn [log failed_upload]. rewrite requests_app. reflexivity.
  - cbn [log failed_upload]. rewrite error_renders_app. reflexivity.
  - intros e0 N. rewrite (transcribe_rejected _ _ _ _ N) in T. congruence.
  - intros r e0 N K B. rewrite (transcribe_ok _ _ _ _ N K), B in T. congruence.
  - cbv zeta. rewrite (upload_fails _ _ rest _ _ T).
    repeat split. exists "Error: ". eexists. reflexivity.
Qed.

(** C10: when the change event carries a file, the handler never leaves the
    class [loading] behind: the class is empty exactly when the [try] block
    ran to its end, and [error] exactly when something in it threw. *)
Theorem class_tells_outcome
    (env : Env) (event : ChangeEvent) (file : File) (rest : list File) (w : World) :
  files event = file :: rest ->
  let class := transcript_className (dom (snd (handleFileUpload env event w))) in
  let attempt := fst (try_block env file (snd (showLoading w))) in
  class <> "loading" /\
  (class = "" <-> attempt = Normal tt) /\
  (class = "error" <-> exists e, attempt = Throw e).
Proof.
  intros E. destruct event as [fs]. cbn in E. subst fs.
  cbv zeta. run_js. split_run;
    (split; [discriminate|]);
    (split; split; intros X;
       try discriminate; try reflexivity; try (eexists; reflexivity);
       try (destruct X; discriminate)).
Qed.

(** X2: the [try] block runs to its end exactly when the response is ok, its
    body parses, and the transcript can be read from it and printed. *)
Lemma try_block_completes (env : Env) (file : File) (w : World) :
  fst (try_block env file w) = Normal tt <->
  exists r v text html,
    network env (TRANSCRIBE_URL env) (upload_request file) = Normal r /\
    ok r = true /\
    json_body r = Normal v /\
    Get v "transcription" = Normal text /\
    ToString (or_default text "No transcript generated.") = Normal html.
Proof.
  unfold upload_request. split.
  - run_js. split_run; intros X; try discriminate.
    repeat eexists; eassumption.
  - intros [r [v [text [html [N [K [B [G S]]]]]]]].
    run_js. rewrite N. cbn. rewrite K. cbn. rewrite B. cbn. rewrite G. cbn.
    rewrite S. reflexivity.
Qed.

(** X3: the handler never throws: whatever the event, the network and the
    body, the promise it returns is fulfilled. *)
Lemma handler_never_throws (env : Env) (event : ChangeEvent) (w : World) :
  fst (handleFileUpload env event w) = Normal tt.
Proof.
  destruct event as [[|file rest]]; [reflexivity|].
  destruct (upload_ends env file rest w) as [[e E]|[[e E]|[html E]]];
    cbv zeta in E; rewrite E; reflexivity.
Qed.

(** Whatever a failed upload rendered starts with [Error: ] and the message
    of the error that the [try] block threw. *)
Lemma failed_upload_prefix
    (env : Env) (file : File) (rest : list File) (w : World) (e : JSError) :
  fst (try_block env file (snd (showLoading w))) = Throw e ->
  StartsWith ("Error: " ++ message e)
    (transcript_innerHTML
       (dom (snd (handleFileUpload env {| files := file :: rest |} w)))).
Proof.
  run_js. split_run; intros X; try discriminate; inversion X; subst;
    unfold error_text; eexists; rewrite string_app_assoc; reflexivity.
Qed.

End Properties.

(** ** The examples of the specification, on V8 *)

Example renders_hello_world :
  handleFileUpload (server hello_world) {| files := [clip] |} idle =
  (Normal tt, rendered_upload (server hello_world) clip "hello world" idle).
Proof. reflexivity. Qed.

Example renders_fallback_on_empty :
  handleFileUpload (server empty_transcription) {| files := [clip] |} idle =
  (Normal tt,
   rendered_upload (server empty_transcription) clip "No transcript generated." idle).
Proof. reflexivity. Qed.

Example renders_too_large :
  let html :=
    transcript_innerHTML
      (dom (snd (handleFileUpload (server too_large) {| files := [clip] |} idle))) in
  includes "413" html = true /\
  includes "Payload Too Large" html = true /\
  includes "file too large" html = true.
Proof. repeat split; vm_compute; reflexivity. Qed.

Example renders_unknown_error_on_bad_body :
  includes "Unknown error"
    (transcript_innerHTML
       (dom (snd (handleFileUpload (server bad_gateway) {| files := [clip] |} idle))))
  = true.
Proof. vm_compute. reflexivity. Qed.

Example renders_network_failure :
  transcript_innerHTML
    (dom (snd (handleFileUpload (offline (TypeError "Failed to fetch"))
                 {| files := [clip] |} idle)))
  = error_text "Failed to fetch".
Proof. reflexivity. Qed.

(** ** A transcript with markup in it

    [showResult] writes the transcript through [innerHTML], the property
    whose setter parses its argument as HTML, and writes it as it came:
    nothing escapes the characters that the parser reads as markup. *)

(** C2: on an ok response whose transcription is [<b>hi</b> & <i>bye], the
    handler completes on the success path and the string it assigns to
    [innerHTML] is that transcript unchanged, with its tags and its
    ampersand; the write is an [innerHTML] write, so the browser parses the
    string as markup instead of showing it as text. *)
Theorem markup_transcript_assigned_unescaped :
  let after :=
    handleFileUpload (server markup_transcript) {| files := [clip] |} idle in
  ok markup_transcript = true /\
  after =
    (Normal tt,
     rendered_upload (server markup_transcript) clip "<b>hi</b> & <i>bye" idle) /\
  In (SetInnerHTML "<b>hi</b> & <i>bye") (log (snd after)) /\
  Contains "<b>" (transcript_innerHTML (dom (snd after))) /\
  Contains "&" (transcript_innerHTML (dom (snd after))).
Proof.
  cbv zeta. split; [reflexivity|]. split; [reflexivity|]. split.
  - cbn. do 6 right. left. reflexivity.
  - split; apply includes_Contains; vm_compute; reflexivity.
Qed.

(** ** A body that is the JSON text [null] on a response that is not ok

    [response.json()] resolves with [null], so the [catch] that would put
    an empty object in its place does not run, and reading [detail] of
    [null] throws before the error with the status line is built.  The
    handler catches the [TypeError] and renders its message instead. *)

(** C3: on status 500 [Internal Server Error] with the body [null], the
    rendered text is the troubleshooting text around the engine's
    [TypeError] message; it holds neither the status code nor the status
    text. *)
Theorem null_body_hides_status :
  let html :=
    transcript_innerHTML
      (dom (snd (handleFileUpload (server null_error_body)
                   {| files := [clip] |} idle))) in
  ok null_error_body = false /\
  html = error_text "Cannot read properties of null (reading 'detail')" /\
  ~ Contains (status_to_string (status null_error_body)) html /\
  ~ Contains (statusText null_error_body) html.
Proof.
  cbv zeta. repeat split.
  - intros C. apply includes_Contains in C. vm_compute in C. discriminate.
  - intros C. apply includes_Contains in C. vm_compute in C. discriminate.
Qed.

(** C4: the body [null] of a response that is not ok parses and has no
    [detail], yet the rendered text does not hold [Unknown error]: reading
    [detail] throws, and the thrown [TypeError] is what is rendered. *)
Theorem null_body_hides_default :
  json_body null_error_body = Normal JNull /\
  Get JNull "detail" =
    Throw (TypeError "Cannot read properties of null (reading 'detail')") /\
  ~ Contains "Unknown error"
      (transcript_innerHTML
         (dom (snd (handleFileUpload (server null_error_body)
                      {| files := [clip] |} idle)))).
Proof.
  repeat split.
  intros C. apply includes_Contains in C. vm_compute in C. discriminate.
Qed.

(** ** Instances of the theorems *)

Lemma no_file_no_effect_witness :
  files {| files := [] |} = [] /\
  handleFileUpload (server hello_world) {| files := [] |} idle = (Normal tt, idle).
Proof.
  split; [reflexivity|].
  apply (no_file_no_effect (server hello_world) {| files := [] |} idle).
  reflexivity.
Defined.

Lemma one_post_per_selection_witness :
  requests (log (snd (handleFileUpload (server hello_world) {| files := [clip] |} idle))) =
  [("https://your-app.vercel.app/api/transcribe",
    {| method := "POST"; body := [("file", clip)] |})].
Proof.
  apply (one_post_per_selection (server hello_world) {| files := [clip] |} clip [] idle).
  reflexivity.
Defined.

Lemma loading_before_post_witness :
  dom (snd ((showLoading ;;
             console_log "Starting serverless transcription...") idle)) =
    {| result_display := "block";
       transcript_innerHTML := "Processing audio with AI...";
       transcript_className := "loading" |} /\
  requests (log (snd ((showLoading ;;
                       console_log "Starting serverless transcription...") idle))) = [] /\
  handleFileUpload (server too_large) {| files := [clip] |} idle =
    (emit (Fetch (TRANSCRIBE_URL (server too_large)) (upload_request clip)) ;;
     resume_upload (server too_large) clip)
      (snd ((showLoading ;;
             console_log "Starting serverless transcription...") idle)).
Proof.
  pose proof (loading_before_post (server too_large) {| files := [clip] |} clip []
                idle eq_refl) as P.
  cbv zeta in P. destruct P as [D [R [Q _]]].
  split; [exact D|]. split; [exact R|exact Q].
Defined.

Lemma result_area_stays_visible_witness :
  result_display
    (dom (snd (run (OpShowError "late")
                 (snd (handleFileUpload (server hello_world)
                         {| files := [clip] |} idle))))) = "block".
Proof.
  apply (result_area_stays_visible (server hello_world) {| files := [clip] |} clip [] idle).
  - reflexivity.
  - apply reachable_step, reachable_refl.
Defined.

Lemma transcript_rendered_witness :
  transcript_innerHTML
    (dom (snd (handleFileUpload (server hello_world) {| files := [clip] |} idle)))
  = "hello world".
Proof.
  refine (proj1 (transcript_rendered (server hello_world) {| files := [clip] |}
                   clip [] idle hello_world
                   [("transcription", JString "hello world")] _ _ _ _)
                "hello world" _ _);
    try reflexivity.
  discriminate.
Defined.

Lemma failures_render_once_witness :
  exists e,
    fst (transcribeWithServerless (offline (TypeError "Failed to fetch")) clip idle)
      = Throw e /\
    handleFileUpload (offline (TypeError "Failed to fetch")) {| files := [clip] |} idle
      = (Normal tt, failed_upload (offline (TypeError "Failed to fetch")) clip e idle) /\
    e = TypeError "Failed to fetch" /\
    transcript_innerHTML
      (dom (snd (handleFileUpload (offline (TypeError "Failed to fetch"))
                   {| files := [clip] |} idle))) =
    ("Error: " ++ message e ++ LF ++ LF ++
     "Make sure to:" ++ LF ++
     "1. Use a supported audio format (MP3, WAV, M4A, FLAC, etc.)" ++ LF ++
     "2. Check your internet connection" ++ LF ++
     "3. File is not empty or corrupted" ++ LF ++
     "4. File is under 25MB")%string.
Proof.
  destruct (failures_render_once (offline (TypeError "Failed to fetch"))
              {| files := [clip] |} clip [] idle)
    as [e [T [R [_ [_ [N [_ P]]]]]]].
  - reflexivity.
  - left. exists (TypeError "Failed to fetch"). reflexivity.
  - cbv zeta in P. destruct P as [_ [D _]].
    exists e. split; [exact T|]. split; [exact R|].
    split; [apply N; reflexivity|].
    rewrite D. reflexivity.
Defined.

Lemma class_tells_outcome_witness :
  let class :=
    transcript_className
      (dom (snd (handleFileUpload (server garbled_success)
                   {| files := [clip] |} idle))) in
  let attempt :=
    fst (try_block (server garbled_success) clip (snd (showLoading idle))) in
  files {| files := [clip] |} = [clip] /\
  class = "error" /\
  attempt = Throw (SyntaxError "Unexpected end of JSON input") /\
  (class = "error" <-> exists e, attempt = Throw e).
Proof.
  cbv zeta. repeat (split; [reflexivity|]).
  apply (class_tells_outcome (server garbled_success) {| files := [clip] |} clip [] idle).
  reflexivity.
Defined.

Lemma not_ok_rendered_witness :
  let html :=
    transcript_innerHTML
      (dom (snd (handleFileUpload (server too_large) {| files := [clip] |} idle))) in
  html = error_text "Transcription failed: 413 Payload Too Large - file too large" /\
  Contains "413" html /\
  Contains "Payload Too Large" html /\
  Contains "file too large" html.
Proof.
  apply (not_ok_rendered (server too_large) clip [] idle too_large
           (Some (JString "file too large")) "file too large");
    reflexivity.
Defined.

(** * Overlapping and successive uploads, and the page load *)

Section PageProperties.
Context `{Engine} `{EngineWrites}.

Ltac run_page :=
  unfold handleFileUpload, start_upload, resume_upload, resume_transcribe,
    try_block, catch_block, transcribeWithServerless,
    fetch, json, showLoading, showResult, showError, console_log,
    console_error, emit, set_display, set_innerHTML, set_className,
    bind, try_catch, lift, ret, throw, FormData_append, upload_request in *;
  cbn [files dom log fst snd app message] in *.

Ltac split_page :=
  repeat (cbn beta iota zeta delta [fst snd negb dom log message files];
          match goal with
          | |- context [match network ?e ?u ?i with _ => _ end] =>
              destruct (network e u i) eqn:?
          | |- context [if negb (ok ?r) then _ else _] =>
              destruct (ok r) eqn:?
          | |- context [match json_body ?r with _ => _ end] =>
              destruct (json_body r) eqn:?
          | |- context [match Get ?v ?p with _ => _ end] =>
              destruct (Get v p) eqn:?
          | |- context [match ToString ?v with _ => _ end] =>
              destruct (ToString v) eqn:?
          end).

Ltac flat_page :=
  cbn [fst snd dom log result_display transcript_innerHTML transcript_className];
  repeat (rewrite <- app_assoc; cbn [app]).

(** The handler is its two halves, one after the other. *)
Lemma upload_in_two_halves (env : Env) (file : File) (rest : list File) (w : World) :
  handleFileUpload env {| files := file :: rest |} w =
  (start_upload env file ;; resume_upload env file) w.
Proof.
  run_page. split_page; reflexivity.
Qed.

(** The first half leaves the loading state and one more request. *)
Lemma start_upload_world (env : Env) (file : File) (w : World) :
  start_upload env file w =
  (Normal tt, {| dom := loading; log := (log w ++ log_until_fetch env file)%list |}).
Proof.
  run_page. unfold loading, log_until_fetch, upload_request. flat_page. reflexivity.
Qed.

(** The second half always completes; it sends nothing, keeps the display,
    and the text and class it leaves do not depend on the page it found. *)
Lemma resume_upload_world (env : Env) (file : File) (w w' : World) :
  fst (resume_upload env file w) = Normal tt /\
  requests (log (snd (resume_upload env file w))) = requests (log w) /\
  dom (snd (resume_upload env file w)) =
  {| result_display := result_display (dom w);
     transcript_innerHTML :=
       transcript_innerHTML (dom (snd (resume_upload env file w')));
     transcript_className :=
       transcript_className (dom (snd (resume_upload env file w'))) |}.
Proof.
  run_page. split_page; flat_page;
    (split; [reflexivity|]); (split; [|reflexivity]);
    rewrite requests_app; cbn; apply app_nil_r.
Qed.

Lemma bind_run {A B} (c : JS A) (k : A -> JS B) (w w' : World) (x : A) :
  c w = (Normal x, w') -> bind c k w = k x w'.
Proof. intros E. unfold bind. rewrite E. reflexivity. Qed.

Lemma resume_upload_run (env : Env) (file : File) (w : World) :
  resume_upload env file w = (Normal tt, snd (resume_upload env file w)).
Proof.
  pose proof (resume_upload_world env file w w) as [F _].
  destruct (resume_upload env file w) as [o w1]. cbn in *. now subst.
Qed.

(** The page that an upload of [file] leaves when it runs alone is the page
    that its second half leaves on any page that is displayed. *)
Lemma resume_upload_page (env : Env) (file : File) (w0 w : World) :
  result_display (dom w) = "block" ->
  dom (snd (resume_upload env file w)) =
  dom (snd (handleFileUpload env {| files := [file] |} w0)).
Proof.
  intros V. rewrite upload_in_two_halves.
  rewrite (bind_run _ _ _ _ _ (start_upload_world env file w0)).
  destruct (resume_upload_world env file w w) as [_ [_ ->]].
  destruct (resume_upload_world env file {| dom := loading;
              log := (log w0 ++ log_until_fetch env file)%list |} w)
    as [_ [_ ->]].
  cbn [dom loading result_display]. now rewrite V.
Qed.

(** X4: two uploads that overlap.  When a second file is selected before
    the first upload has settled, both requests are sent, in the order of
    selection, and the page ends with the outcome of whichever upload
    settles last: if the first one settles last, the page shows its outcome
    although the second file was selected after it. *)
Theorem last_settled_wins (env : Env) (a b : File) (w : World) :
  let in_order :=
    (start_upload env a ;; start_upload env b ;;
     resume_upload env a ;; resume_upload env b) w in
  let out_of_order :=
    (start_upload env a ;; start_upload env b ;;
     resume_upload env b ;; resume_upload env a) w in
  dom (snd in_order) = dom (snd (handleFileUpload env {| files := [b] |} w)) /\
  dom (snd out_of_order) = dom (snd (handleFileUpload env {| files := [a] |} w)) /\
  fst out_of_order = Normal tt /\
  requests (log (snd out_of_order)) =
  (requests (log w) ++
   [(TRANSCRIBE_URL env, upload_request a);
    (TRANSCRIBE_URL env, upload_request b)])%list.
Proof.
  cbv zeta.
  rewrite !(bind_run _ _ _ _ _ (start_upload_world env a w)).
  rewrite !(bind_run _ _ _ _ _ (start_upload_world env b _)).
  rewrite (bind_run _ _ _ _ _ (resume_upload_run env a _)).
  rewrite (bind_run _ _ _ _ _ (resume_upload_run env b _)).
  set (w2 := {| dom := loading; log := _ |}).
  assert (V : forall f, result_display (dom (snd (resume_upload env f w2))) = "block").
  { intros f. destruct (resume_upload_world env f w2 w2) as [_ [_ ->]]. reflexivity. }
  split; [apply resume_upload_page, V|].
  split; [apply resume_upload_page, V|].
  split; [apply resume_upload_world; exact w|].
  destruct (resume_upload_world env a (snd (resume_upload env b w2)) w) as [_ [-> _]].
  destruct (resume_upload_world env b w2 w) as [_ [-> _]].
  subst w2. cbn [log]. rewrite !requests_app. cbn.
  rewrite <- app_assoc. reflexivity.
Qed.

(** X5: an upload overwrites the page.  The display, the text and the
    class that an upload of a file leaves depend on the request's outcome
    alone, not on what the page showed before. *)
Theorem upload_overwrites_page
    (env : Env) (event : ChangeEvent) (file : File) (rest : list File) (w w' : World) :
  files event = file :: rest ->
  dom (snd (handleFileUpload env event w)) =
  dom (snd (handleFileUpload env event w')).
Proof.
  intros E. destruct event as [fs]. cbn in E. subst fs.
  destruct (fst (transcribeWithServerless env file w)) as [v|e] eqn:T;
    pose proof T as T'; rewrite (transcribe_settles env file w w') in T'.
  - rewrite (upload_settles _ _ _ _ _ T), (upload_settles _ _ _ _ _ T').
    destruct (Get v "transcription"); [|reflexivity].
    destruct (ToString _); reflexivity.
  - rewrite (upload_fails _ _ _ _ _ T), (upload_fails _ _ _ _ _ T'). reflexivity.
Qed.

(** X6: change events handled one after the other send one request for
    each event that carries a file, for its first file and in the order of
    the events, whatever the outcomes; events without a file send none. *)
Theorem requests_follow_selections (env : Env) (events : list ChangeEvent) (w : World) :
  fst (handle_all env events w) = Normal tt /\
  requests (log (snd (handle_all env events w))) =
  (requests (log w) ++
   map (fun file => (TRANSCRIBE_URL env, upload_request file)) (uploaded events))%list.
Proof.
  revert w. induction events as [|[[|file rest]] later IH]; intros w.
  - cbn. rewrite app_nil_r. split; reflexivity.
  - cbn [handle_all uploaded files]. apply IH.
  - cbn [handle_all uploaded files map].
    destruct (upload_ends env file rest w) as [[e E]|[[e E]|[html E]]];
      cbv zeta in E; rewrite (bind_run _ _ _ _ _ E);
      match goal with
      | |- context [handle_all env later ?W] => destruct (IH W) as [F ->]
      end;
      (split; [exact F|]);
      cbn [log failed_upload failed_render rendered_upload];
      rewrite !requests_app; cbn; rewrite <- !app_assoc; reflexivity.
Qed.

(** X7: a success status over the body [null].  The response is read, the
    console says that the transcription completed, and reading
    [transcription] of [null] then throws: the page ends in the error
    render with the engine's [TypeError] message, not in the fallback. *)
Theorem ok_null_body_fails
    (env : Env) (event : ChangeEvent) (file : File) (rest : list File) (w : World)
    (r : Response) :
  files event = file :: rest ->
  network env (TRANSCRIBE_URL env) (upload_request file) = Normal r ->
  ok r = true ->
  json_body r = Normal JNull ->
  handleFileUpload env event w =
  (Normal tt,
   failed_render env file (TypeError (null_read_message "transcription")) w).
Proof.
  intros E N K B. destruct event as [fs]. cbn in E. subst fs.
  pose proof (transcribe_ok env file w r N K) as T. rewrite B in T.
  rewrite (upload_settles _ _ _ _ _ T). reflexivity.
Qed.

(** X8: a transcription that is falsy.  When the body of an ok response is
    an object whose [transcription] is missing, [null], [false], zero or
    the empty string, the page shows [No transcript generated.] with the
    empty class. *)
Theorem falsy_transcription_gives_fallback
    (env : Env) (event : ChangeEvent) (file : File) (rest : list File) (w : World)
    (r : Response) (props : list (string * JSON)) :
  files event = file :: rest ->
  network env (TRANSCRIBE_URL env) (upload_request file) = Normal r ->
  ok r = true ->
  json_body r = Normal (JObject props) ->
  ToBoolean (own_property "transcription" props) = false ->
  handleFileUpload env event w =
  (Normal tt, rendered_upload env file "No transcript generated." w).
Proof.
  intros E N K B F. destruct event as [fs]. cbn in E. subst fs.
  pose proof (transcribe_ok env file w r N K) as T. rewrite B in T.
  rewrite (upload_settles _ _ _ _ _ T). cbn [Get].
  unfold or_default. rewrite F.
  destruct (own_property "transcription" props); reflexivity.
Qed.

(** A list of objects prints as that many [[object Object]], with commas
    in between, unless one of them has an own property [toString]: then
    the conversion throws. *)
Lemma objects_print (items : list (list (string * JSON))) :
  ToString (JArray (map JObject items)) =
  if forallb (fun item =>
                match own_property "toString" item with
                | None => true
                | Some _ => false
                end) items
  then Normal (String.concat "," (repeat "[object Object]" (length items)))
  else Throw (TypeError to_primitive_message).
Proof.
  induction items as [|item items IH]; [reflexivity|].
  cbn [map length repeat String.concat ToString forallb].
  destruct (own_property "toString" item); [reflexivity|].
  cbn [ToString andb] in *.
  destruct items as [|item' items]; [reflexivity|].
  cbn [map] in *. rewrite IH.
  destruct (forallb _ (item' :: items)); reflexivity.
Qed.

(** X9: a detail that is a list of objects, as a validation error has it.
    When no item has an own property [toString], the rendered text names
    the status and then only [[object Object]], once for each item, with
    commas in between.  When some item has one, printing the list throws
    and the rendered text is the troubleshooting text around the engine's
    [TypeError] message, without the status.  In both cases the text is the
    same for all lists of that length and kind: nothing of what the items
    hold is shown. *)
Theorem list_detail_is_opaque
    (env : Env) (event : ChangeEvent) (file : File) (rest : list File) (w : World)
    (r : Response) (props : list (string * JSON))
    (items : list (list (string * JSON))) :
  files event = file :: rest ->
  network env (TRANSCRIBE_URL env) (upload_request file) = Normal r ->
  ok r = false ->
  json_body r = Normal (JObject props) ->
  own_property "detail" props = Some (JArray (map JObject items)) ->
  transcript_innerHTML (dom (snd (handleFileUpload env event w))) =
  if forallb (fun item =>
                match own_property "toString" item with
                | None => true
                | Some _ => false
                end) items
  then error_text
         (failure_text r
            (String.concat "," (repeat "[object Object]" (length items))))
  else error_text to_primitive_message.
Proof.
  intros E N K B D. destruct event as [fs]. cbn in E. subst fs.
  pose proof (transcribe_not_ok env file w r N K) as T.
  rewrite B in T. cbn [Get] in T. rewrite D in T.
  cbn [or_default ToBoolean] in T. rewrite objects_print in T.
  destruct (forallb _ items);
    rewrite (upload_fails _ _ rest _ _ T); reflexivity.
Qed.

(** No operation breaks the agreement of class and text. *)
Lemma run_keeps_consistent (o : Operation) (w : World) :
  consistent (dom w) -> consistent (dom (snd (run o w))).
Proof.
  intros C. destruct o as [|text|m|env [[|file rest]]]; cbn [run].
  - left. split; reflexivity.
  - run_page. destruct (ToString _); cbn [snd dom]; [|exact C].
    right. right. reflexivity.
  - right. left. split; [reflexivity|]. exists m. reflexivity.
  - exact C.
  - destruct (upload_ends env file rest w) as [[e E]|[[e E]|[html E]]];
      cbv zeta in E; rewrite E; cbn [snd dom failed_upload failed_render
                                      rendered_upload].
    + right. left. split; [reflexivity|]. eexists. reflexivity.
    + right. left. split; [reflexivity|]. eexists. reflexivity.
    + right. right. reflexivity.
Qed.

(** X10: class and text agree in every state.  From a page on which they
    agree, whatever render methods and change events follow, in whatever
    order, the class [loading] is only ever on the placeholder text and
    the class [error] only on a troubleshooting text. *)
Theorem page_stays_consistent (w w' : World) :
  consistent (dom w) -> reachable w w' -> consistent (dom w').
Proof.
  intros C R. induction R as [|w1 o R IH]; [exact C|].
  apply run_keeps_consistent, IH.
Qed.

(** ** The constructor and the page load *)

Lemma getElementById_found (doc : Document) (id : string) :
  In id doc -> getElementById doc id = Some id.
Proof.
  intros I. unfold getElementById.
  replace (existsb (String.eqb id) doc) with true; [reflexivity|].
  symmetry. apply existsb_exists. exists id. split; [exact I|apply String.eqb_refl].
Qed.

Lemma getElementById_missing (doc : Document) (id : string) :
  ~ In id doc -> getElementById doc id = None.
Proof.
  intros I. unfold getElementById.
  destruct (existsb (String.eqb id) doc) eqn:X; [|reflexivity].
  apply existsb_exists in X. destruct X as [x [Ix Ex]].
  apply String.eqb_eq in Ex. subst x. contradiction.
Qed.

(** On a tester that has its result area and its transcript element the
    methods are those of the page with all its elements. *)
Lemma handleFileUpload_of_complete
    (this : TranscriptionTester) (a b : string) (env : Env) (event : ChangeEvent)
    (w : World) :
  result this = Some a ->
  transcript this = Some b ->
  handleFileUpload_of this env event w = handleFileUpload env event w.
Proof.
  intros R T. unfold handleFileUpload_of, handleFileUpload, showLoading_of,
    showResult_of, showError_of, try_block, catch_block, showLoading, showResult,
    showError, reading, writing.
  rewrite R, T. destruct (files event) as [|file rest]; [reflexivity|].
  run_page. split_page; reflexivity.
Qed.

(** X11: on a document that holds [#audioFile], [#result] and
    [#transcript], the page load registers a handler, and a change event
    on the file input then does what [handleFileUpload] does. *)
Theorem complete_page_wires_handler
    (doc : Document) (env : Env) (event : ChangeEvent) (w : World) :
  In "audioFile" doc -> In "result" doc -> In "transcript" doc ->
  (exists this, new_TranscriptionTester doc = Normal this /\
                DOMContentLoaded doc = Some this) /\
  change (DOMContentLoaded doc) env event w = handleFileUpload env event w.
Proof.
  intros A R T. unfold DOMContentLoaded, new_TranscriptionTester.
  cbn [audioFile]. rewrite (getElementById_found _ _ A).
  split; [eexists; split; reflexivity|].
  cbn [change]. eapply handleFileUpload_of_complete; cbn.
  - apply getElementById_found, R.
  - apply getElementById_found, T.
Qed.

(** X12: the constructor checks for the file input and for nothing else.
    It completes exactly when the document holds [#audioFile], whether or
    not the result area is there; without the input it throws before any
    listener is registered, and a change event then leaves the page and
    the log as they are. *)
Theorem constructor_needs_the_input_only
    (doc : Document) (env : Env) (event : ChangeEvent) (w : World) :
  ((exists this, new_TranscriptionTester doc = Normal this) <-> In "audioFile" doc) /\
  (~ In "audioFile" doc ->
   new_TranscriptionTester doc =
     Throw (TypeError (null_read_message "addEventListener")) /\
   change (DOMContentLoaded doc) env event w = (Normal tt, w)).
Proof.
  unfold DOMContentLoaded, new_TranscriptionTester. cbn [audioFile]. split.
  - split.
    + intros [this E]. unfold getElementById in E.
      destruct (existsb (String.eqb "audioFile") doc) eqn:X; [|discriminate].
      apply existsb_exists in X. destruct X as [x [Ix Ex]].
      apply String.eqb_eq in Ex. now subst x.
    + intros I. rewrite (getElementById_found _ _ I). eexists. reflexivity.
  - intros I. rewrite (getElementById_missing _ _ I). split; reflexivity.
Qed.

(** X13: a page with the file input but without its result area or its
    transcript element.  The page load succeeds; when a file is then
    selected, the handler throws a [TypeError] in [showLoading], outside
    its [try] block: no request is sent, no error is rendered, and the
    text and the class are left as they were. *)
Theorem missing_result_area_rejects
    (doc : Document) (env : Env) (event : ChangeEvent) (file : File)
    (rest : list File) (w : World) :
  In "audioFile" doc ->
  ~ In "result" doc \/ ~ In "transcript" doc ->
  files event = file :: rest ->
  let after := change (DOMContentLoaded doc) env event w in
  (exists m, fst after = Throw (TypeError m)) /\
  requests (log (snd after)) = requests (log w) /\
  error_renders (log (snd after)) = error_renders (log w) /\
  transcript_innerHTML (dom (snd after)) = transcript_innerHTML (dom w) /\
  transcript_className (dom (snd after)) = transcript_className (dom w).
Proof.
  intros A M E. destruct event as [fs]. cbn in E. subst fs.
  unfold DOMContentLoaded, new_TranscriptionTester. cbn [audioFile].
  rewrite (getElementById_found _ _ A).
  cbv zeta. cbn [change]. unfold handleFileUpload_of, showLoading_of, reading, writing.
  cbn [files result transcript].
  destruct (getElementById doc "result") eqn:R.
  - destruct M as [M|M].
    + rewrite (getElementById_missing _ _ M) in R. discriminate.
    + rewrite (getElementById_missing _ _ M).
      run_page. rewrite requests_app, error_renders_app. cbn.
      rewrite app_nil_r, Nat.add_0_r. repeat split. eexists. reflexivity.
  - run_page. repeat split. eexists. reflexivity.
Qed.

End PageProperties.

(** ** Instances on V8 *)

(** The accepted clip is selected first and the refused one second; the
    refusal comes back first.  The page ends on the first clip's
    transcript. *)
Example stale_transcript_shown :
  dom (snd ((start_upload picky_server clip ;;
             start_upload picky_server long_clip ;;
             resume_upload picky_server long_clip ;;
             resume_upload picky_server clip) idle)) =
  {| result_display := "block";
     transcript_innerHTML := "hello world";
     transcript_className := "" |}.
Proof. reflexivity. Qed.

Lemma upload_overwrites_page_witness :
  dom (snd (handleFileUpload (server hello_world) {| files := [clip] |} idle)) =
  dom (snd (handleFileUpload (server hello_world) {| files := [clip] |}
              (snd (handleFileUpload (server too_large) {| files := [clip] |} idle)))).
Proof.
  apply (upload_overwrites_page (server hello_world) {| files := [clip] |} clip []).
  reflexivity.
Defined.

Lemma ok_null_body_fails_witness :
  handleFileUpload (server null_success) {| files := [clip] |} idle =
  (Normal tt,
   failed_render (server null_success) clip
     (TypeError "Cannot read properties of null (reading 'transcription')") idle).
Proof.
  apply (ok_null_body_fails (server null_success) {| files := [clip] |} clip [] idle
           null_success); reflexivity.
Defined.

Lemma falsy_transcription_gives_fallback_witness :
  handleFileUpload (server empty_transcription) {| files := [clip] |} idle =
  (Normal tt,
   rendered_upload (server empty_transcription) clip "No transcript generated." idle).
Proof.
  apply (falsy_transcription_gives_fallback (server empty_transcription)
           {| files := [clip] |} clip [] idle empty_transcription
           [("transcription", JString "")]); reflexivity.
Defined.

Lemma list_detail_is_opaque_witness :
  transcript_innerHTML
    (dom (snd (handleFileUpload (server unprocessable) {| files := [clip] |} idle))) =
  error_text
    "Transcription failed: 422 Unprocessable Entity - [object Object],[object Object]".
Proof.
  apply (list_detail_is_opaque (server unprocessable) {| files := [clip] |} clip []
           idle unprocessable
           [("detail",
             JArray [JObject [("msg", JString "field required")];
                     JObject [("msg", JString "value is not a valid file")]])]
           [[("msg", JString "field required")];
            [("msg", JString "value is not a valid file")]]);
    reflexivity.
Defined.

Lemma page_stays_consistent_witness :
  consistent
    (dom (snd (run (OpHandleFileUpload (server too_large) {| files := [clip] |})
                 (snd (run OpShowLoading idle))))).
Proof.
  apply (page_stays_consistent idle).
  - right. right. reflexivity.
  - apply reachable_step, reachable_step, reachable_refl.
Defined.

Lemma complete_page_wires_handler_witness :
  (exists this, new_TranscriptionTester complete_page = Normal this /\
                DOMContentLoaded complete_page = Some this) /\
  change (DOMContentLoaded complete_page) (server hello_world)
    {| files := [clip] |} idle =
  handleFileUpload (server hello_world) {| files := [clip] |} idle.
Proof.
  apply (complete_page_wires_handler complete_page (server hello_world)
           {| files := [clip] |} idle); cbn; auto.
Defined.

Lemma missing_result_area_rejects_witness :
  (exists m,
     fst (change (DOMContentLoaded page_without_result) (server hello_world)
            {| files := [clip] |} idle) = Throw (TypeError m)) /\
  requests
    (log (snd (change (DOMContentLoaded page_without_result) (server hello_world)
                 {| files := [clip] |} idle))) = requests (log idle).
Proof.
  destruct (missing_result_area_rejects page_without_result (server hello_world)
              {| files := [clip] |} clip [] idle) as [T [R _]].
  - cbn. auto.
  - left. cbn. intros [X|[X|[]]]; discriminate.
  - reflexivity.
  - split; assumption.
Defined.
